(** * Fused dot-product attention: abstract evaluation, backend
      configuration and GPU lowering

    A shallow embedding of [jax/experimental/fused_attention_stableHLO.py].

    The Python module registers two primitives (forward and backward fused
    attention), gives each an abstract-evaluation rule over [ShapedArray]
    descriptors, builds the cuDNN backend configuration dictionary and lowers
    each primitive to one [custom_call].  Everything modelled here is
    metadata construction: no tensor arithmetic is performed by the module.

    Conventions of the embedding:
    - a Python exception is a value of [exn]; code that may raise lives in
      the monad [py];
    - an [assert] raises [AssertionError] when its condition is false (the
      interpreter's default mode, [__debug__ = True]);
    - tuple unpacking of a sequence of the wrong length raises [ValueError];
    - a Python [dict] literal is an association list in source order. *)

From Stdlib Require Import ZArith List String Bool Lia.
From Stdlib Require Import DecimalString DecimalZ DecimalPos.
From Stdlib Require Import Floats.SpecFloat.
Import ListNotations.

Set Warnings "-register-all".
Local Open Scope Z_scope.
Local Open Scope string_scope.

(** ** Python values and exceptions *)

(** The exceptions the module can raise by itself. *)
Inductive exn : Type :=
| AssertionError   (* a failed [assert] statement *)
| ValueError.      (* tuple unpacking with a wrong number of values *)

(** Outcome of running a piece of Python code. *)
Inductive py (A : Type) : Type :=
| Return (a : A)
| Raise (e : exn).

Arguments Return {A} a.
Arguments Raise {A} e.

Definition bind {A B : Type} (m : py A) (k : A -> py B) : py B :=
  match m with
  | Return a => k a
  | Raise e => Raise e
  end.

Declare Scope py_scope.
Delimit Scope py_scope with py.
Notation "x <- m ;; k" := (bind m (fun x => k))
  (at level 61, m at next level, right associativity) : py_scope.
Notation "' pat <- m ;; k" := (bind m (fun x => match x with pat => k end))
  (at level 61, pat pattern, m at next level, right associativity) : py_scope.
Notation "m ;; k" := (bind m (fun _ => k))
  (at level 61, right associativity) : py_scope.
Local Open Scope py_scope.

(** [assert cond] *)
Definition py_assert (cond : bool) : py unit :=
  if cond then Return tt else Raise AssertionError.

(** [a, b, c, d = xs] *)
Definition unpack4 {A : Type} (xs : list A) : py (A * A * A * A) :=
  match xs with
  | [a; b; c; d] => Return (a, b, c, d)
  | _ => Raise ValueError
  end.

(** Dynamically typed values that flow through the module untouched
    (the scale, the dropout rate, the flags) or that make up the backend
    configuration dictionary.  A Python [float] is an IEEE binary64 value. *)
Inductive pyval : Type :=
| PyNone
| PyBool (b : bool)
| PyInt (z : Z)
| PyFloat (f : spec_float)
| PyStr (s : string)
| PyList (l : list pyval)
| PyDict (d : list (string * pyval)).

(** [str(n)] for an [int]. *)
Definition str (n : Z) : string := NilZero.string_of_int (Z.to_int n).

(** [d[k]] on a dictionary value; [None] stands for a missing key or a
    value that is not a dictionary. *)
Fixpoint assoc (k : string) (d : list (string * pyval)) : option pyval :=
  match d with
  | [] => None
  | (k', v) :: d' => if String.eqb k k' then Some v else assoc k d'
  end.

Definition getitem (v : pyval) (k : string) : option pyval :=
  match v with
  | PyDict d => assoc k d
  | _ => None
  end.

(** ** Array descriptors *)

(** NumPy/JAX element types of array descriptors. *)
Inductive DType : Type :=
| bool_ | int8 | int16 | int32 | int64
| uint8 | uint16 | uint32 | uint64
| float16 | bfloat16 | float32 | float64
| complex64 | complex128.

Definition DType_eq_dec (a b : DType) : {a = b} + {a <> b}.
Proof. decide equality. Defined.

(** [a == b] on dtypes. *)
Definition dtype_eqb (a b : DType) : bool :=
  if DType_eq_dec a b then true else false.

(** [x in xs] on dtypes. *)
Definition dtype_in (x : DType) (xs : list DType) : bool :=
  existsb (dtype_eqb x) xs.

(** [jax.core.ShapedArray]: a shape (tuple of axis lengths) and a dtype. *)
Record ShapedArray : Type := mkShapedArray {
  shape : list Z;
  dtype : DType
}.

(** ** Abstract evaluation *)

Section AbstractEval.

(** [jax.dtypes.canonicalize_dtype] lives outside this module; it is taken
    as a parameter. *)
Variable canonicalize_dtype : DType -> DType.

Definition _dot_product_attention_fwd_abstract
    (query key value : ShapedArray) (scale : pyval)
  : py (ShapedArray * ShapedArray) :=
  let query_dtype := canonicalize_dtype (dtype query) in
  let key_dtype := canonicalize_dtype (dtype key) in
  let value_dtype := canonicalize_dtype (dtype value) in
  py_assert (dtype_eqb query_dtype key_dtype
             && dtype_eqb key_dtype value_dtype) ;;
  py_assert (dtype_in query_dtype [float16; bfloat16]) ;;
  '(batch_size, q_seq_len, num_heads, head_dim) <- unpack4 (shape query) ;;
  '(_, kv_seq_len, _, _) <- unpack4 (shape key) ;;
  let output_shape := [batch_size; q_seq_len; num_heads; head_dim] in
  let activation_shape := [batch_size; num_heads; q_seq_len; kv_seq_len] in
  Return (mkShapedArray output_shape query_dtype,
          mkShapedArray activation_shape query_dtype).

Definition _dot_product_attention_bwd_abstract
    (grad_output query key value activation : ShapedArray) (scale : pyval)
  : py (ShapedArray * ShapedArray * ShapedArray) :=
  let query_dtype := canonicalize_dtype (dtype query) in
  let key_dtype := canonicalize_dtype (dtype key) in
  let value_dtype := canonicalize_dtype (dtype value) in
  py_assert (dtype_eqb query_dtype key_dtype
             && dtype_eqb key_dtype value_dtype) ;;
  py_assert (dtype_in query_dtype [float16; bfloat16]) ;;
  Return (mkShapedArray (shape query) query_dtype,
          mkShapedArray (shape key) key_dtype,
          mkShapedArray (shape value) value_dtype).

End AbstractEval.

(** An instance of the parameter, used to run the rules on concrete
    inputs: with 64-bit types disabled, 64-bit dtypes narrow to their 32-bit
    counterparts and every other dtype is unchanged; with 64-bit types
    enabled it is the identity. *)
Definition canonicalize_x64 (enable_x64 : bool) (d : DType) : DType :=
  if enable_x64 then d else
  match d with
  | int64 => int32
  | uint64 => uint32
  | float64 => float32
  | complex128 => complex64
  | _ => d
  end.

(** ** MLIR types and values *)

Module ir.

(** Element types of MLIR tensors ([ir.BF16Type.get()] and friends). *)
Inductive Type_ : Type :=
| BF16Type | F16Type | F32Type | F64Type
| IntegerType (width : positive)
| IndexType.

Definition Type_eq_dec (a b : Type_) : {a = b} + {a <> b}.
Proof. repeat decide equality. Defined.

(** [ir.RankedTensorType]: a static shape and an element type. *)
Record RankedTensorType : Type := mkRankedTensorType {
  shape : list Z;
  element_type : Type_
}.

(** [ir.Value]: an SSA value; only its type is looked at here. *)
Record Value : Type := mkValue {
  type : RankedTensorType
}.

End ir.

(** [d.get(k)] on a dictionary keyed by MLIR types with string values. *)
Fixpoint type_dict_get (d : list (ir.Type_ * string)) (k : ir.Type_) : pyval :=
  match d with
  | [] => PyNone
  | (k', v) :: d' =>
      if ir.Type_eq_dec k k' then PyStr v else type_dict_get d' k
  end.

(** ** Backend configuration *)

Definition element_type_to_backend_config_type_mapping (dtype : ir.Type_)
  : pyval :=
  let _element_type_to_backend_config_type_mapping :=
    [ (ir.BF16Type, "BF16");
      (ir.F16Type, "F16") ] in
  type_dict_get _element_type_to_backend_config_type_mapping dtype.

(** [range(n - 1, -1, -1)] *)
Fixpoint range_down (n : nat) : list Z :=
  match n with
  | O => []
  | S m => Z.of_nat m :: range_down m
  end.

Definition default_layouts (shapes : list (list Z)) : list (list Z) :=
  map (fun shape => range_down (List.length shape)) shapes.

(** One ["..._dot_dimension_numbers"] entry of the configuration. *)
Definition dot_dimension_numbers (lhs_c rhs_c lhs_b rhs_b : list string)
  : pyval :=
  PyDict
    [ ("lhs_contracting_dimensions", PyList (map PyStr lhs_c));
      ("rhs_contracting_dimensions", PyList (map PyStr rhs_c));
      ("lhs_batch_dimensions", PyList (map PyStr lhs_b));
      ("rhs_batch_dimensions", PyList (map PyStr rhs_b)) ].

Definition create_dot_product_attention_backend_config
    (batch_size num_heads seq_q seq_kv : Z) (dtype : ir.Type_)
    (fmha_scale dropout_rate is_flash_attention is_causal_mask : pyval)
  : py pyval :=
  let backend_config := PyDict
    [ ("algorithm", PyDict
         [ ("algo_id", PyStr "0");
           ("math_type", PyStr "TENSOR_OP_MATH");
           ("tuning_knobs", PyDict [ ("17", PyStr "1"); ("24", PyStr "0") ]);
           ("is_cudnn_frontend", PyBool true);
           ("workspace_size", PyStr "0") ]);
      ("fmha_scale", fmha_scale);
      ("dropout_rate", dropout_rate);
      ("bmm1_dot_dimension_numbers",
         dot_dimension_numbers ["3"] ["3"] ["0"; "2"] ["0"; "2"]);
      ("bmm2_dot_dimension_numbers",
         dot_dimension_numbers ["3"] ["1"] ["0"; "1"] ["0"; "2"]);
      ("bmm1_grad_gemm1_dot_dimension_numbers",
         dot_dimension_numbers ["2"] ["1"] ["0"; "1"] ["0"; "2"]);
      ("bmm1_grad_gemm2_dot_dimension_numbers",
         dot_dimension_numbers ["3"] ["1"] ["0"; "1"] ["0"; "2"]);
      ("bmm2_grad_gemm1_dot_dimension_numbers",
         dot_dimension_numbers ["2"] ["1"] ["0"; "1"] ["0"; "2"]);
      ("bmm2_grad_gemm2_dot_dimension_numbers",
         dot_dimension_numbers ["3"] ["3"] ["0"; "2"] ["0"; "2"]);
      ("intermediate_tensor_shape", PyDict
         [ ("element_type",
              element_type_to_backend_config_type_mapping dtype);
           ("dimensions",
              PyList [ PyStr (str batch_size); PyStr (str num_heads);
                       PyStr (str seq_q); PyStr (str seq_kv) ]);
           ("tuple_shapes", PyList []);
           ("layout", PyDict
              [ ("dim_level_types", PyList []);
                ("dim_unique", PyList []);
                ("dim_ordered", PyList []);
                ("minor_to_major",
                   PyList [ PyStr "3"; PyStr "2"; PyStr "1"; PyStr "0" ]);
                ("tiles", PyList []);
                ("element_size_in_bits", PyStr "0");
                ("memory_space", PyStr "0");
                ("index_primitive_type", PyStr "PRIMITIVE_TYPE_INVALID");
                ("pointer_primitive_type", PyStr "PRIMITIVE_TYPE_INVALID");
                ("dynamic_shape_metadata_prefix_bytes", PyStr "0") ]);
           ("is_dynamic_dimension",
              PyList [ PyBool false; PyBool false;
                       PyBool false; PyBool false ]) ]);
      ("seed", PyStr "42");
      ("is_flash_attention", is_flash_attention);
      ("is_causal_mask", is_causal_mask) ] in
  Return backend_config.

(** ** Lowering to the external kernel *)

(** The operation assembled by [jaxlib.hlo_helpers.custom_call], kept as the
    keyword arguments it is called with. *)
Record CustomCall : Type := mkCustomCall {
  call_target_name : string;
  result_types : list ir.RankedTensorType;
  operands : list ir.Value;
  backend_config : pyval;
  operand_layouts : list (list Z);
  result_layouts : list (list Z)
}.

Definition custom_call (call_target_name : string)
    (result_types : list ir.RankedTensorType) (operands : list ir.Value)
    (backend_config : pyval) (operand_layouts result_layouts : list (list Z))
  : CustomCall :=
  mkCustomCall call_target_name result_types operands backend_config
               operand_layouts result_layouts.

(** The lowering context is never consulted. *)
Definition LoweringRuleContext : Type := unit.

Definition _dot_product_attention_fwd_cuda_lowering
    (ctx : LoweringRuleContext) (query key value : ir.Value) (scale : pyval)
  : py CustomCall :=
  let query_type := ir.type query in
  let query_shape := ir.shape query_type in
  let key_type := ir.type key in
  let key_shape := ir.shape key_type in
  let value_type := ir.type value in
  let value_shape := ir.shape value_type in
  '(batch_size, q_seq_len, num_heads, head_dim) <- unpack4 query_shape ;;
  '(_, kv_seq_len, _, _) <- unpack4 key_shape ;;
  let output_shape := [batch_size; q_seq_len; num_heads; head_dim] in
  let activation_shape := [batch_size; num_heads; q_seq_len; kv_seq_len] in
  opaque <- create_dot_product_attention_backend_config
              batch_size num_heads q_seq_len kv_seq_len
              (ir.element_type query_type) scale
              (PyInt 0) (PyBool false) (PyBool false) ;;
  let out := custom_call "__cudnn$fhmaSoftmax"
    [ ir.mkRankedTensorType output_shape (ir.element_type query_type);
      ir.mkRankedTensorType activation_shape (ir.element_type query_type) ]
    [ query; key; value ]
    opaque
    (default_layouts [query_shape; key_shape; value_shape])
    (default_layouts [output_shape; activation_shape]) in
  Return out.

Definition _dot_product_attention_bwd_cuda_lowering
    (ctx : LoweringRuleContext)
    (grad_output query key value activation : ir.Value) (scale : pyval)
  : py CustomCall :=
  let query_type := ir.type query in
  let query_shape := ir.shape query_type in
  let key_type := ir.type key in
  let key_shape := ir.shape key_type in
  let value_type := ir.type value in
  let value_shape := ir.shape value_type in
  let activation_type := ir.type activation in
  let activation_shape := ir.shape activation_type in
  '(batch_size, q_seq_len, num_heads, _) <- unpack4 query_shape ;;
  '(_, kv_seq_len, _, _) <- unpack4 key_shape ;;
  opaque <- create_dot_product_attention_backend_config
              batch_size num_heads q_seq_len kv_seq_len
              (ir.element_type query_type) scale
              (PyInt 0) (PyBool false) (PyBool false) ;;
  let out := custom_call "__cudnn$fhmaSoftmaxBackward"
    [ ir.mkRankedTensorType query_shape (ir.element_type query_type);
      ir.mkRankedTensorType key_shape (ir.element_type key_type);
      ir.mkRankedTensorType value_shape (ir.element_type value_type) ]
    [ query; key; value; activation ]
    opaque
    (default_layouts [query_shape; key_shape; value_shape; activation_shape])
    (default_layouts [query_shape; key_shape; value_shape]) in
  Return out.

(** ** Vocabulary of the properties *)

(** The dtype invariant on the three inputs: one shared dtype, and that
    dtype is one of the two half-precision formats. *)
Definition half_precision (d : DType) : Prop :=
  d = float16 \/ d = bfloat16.

Definition shared_half_precision (query key value : ShapedArray) : Prop :=
  dtype query = dtype key /\ dtype key = dtype value /\
  half_precision (dtype query).

(** What is relied on about [canonicalize_dtype]: it leaves the two
    half-precision dtypes alone and maps no other dtype onto them. *)
Definition respects_half_precision (canon : DType -> DType) : Prop :=
  forall d,
    (canon d = float16 <-> d = float16) /\
    (canon d = bfloat16 <-> d = bfloat16).

(** The conditions of the two [assert] statements of the abstract-evaluation
    rules, as one boolean. *)
Definition dtype_guard (canon : DType -> DType)
    (query key value : ShapedArray) : bool :=
  (dtype_eqb (canon (dtype query)) (canon (dtype key))
   && dtype_eqb (canon (dtype key)) (canon (dtype value)))
  && dtype_in (canon (dtype query)) [float16; bfloat16].

(** Axis [i] of a descriptor, when it has one. *)
Definition axis (a : ShapedArray) (i : nat) : option Z :=
  nth_error (shape a) i.

Definition rank (a : ShapedArray) : nat := List.length (shape a).

(** Some batch axis (0) or head-count axis (2) differs between two of
    Q, K, V, or K and V differ on the sequence axis (1). *)
Definition axes_disagree (query key value : ShapedArray) : Prop :=
  axis query 0 <> axis key 0 \/ axis query 0 <> axis value 0 \/
  axis key 0 <> axis value 0 \/
  axis query 2 <> axis key 2 \/ axis query 2 <> axis value 2 \/
  axis key 2 <> axis value 2 \/
  axis key 1 <> axis value 1.

(** The names of the six matmul stages of the configuration. *)
Definition dimension_numbering_keys : list string :=
  [ "bmm1_dot_dimension_numbers";
    "bmm2_dot_dimension_numbers";
    "bmm1_grad_gemm1_dot_dimension_numbers";
    "bmm1_grad_gemm2_dot_dimension_numbers";
    "bmm2_grad_gemm1_dot_dimension_numbers";
    "bmm2_grad_gemm2_dot_dimension_numbers" ].

Definition dimension_blocks (cfg : pyval) : list (option pyval) :=
  map (getitem cfg) dimension_numbering_keys.

(** Contracting and batch axes of the six stages, as the literals of the
    source give them (left contracting, right contracting, left batch,
    right batch). *)
Definition fixed_dimension_blocks : list (option pyval) :=
  [ Some (dot_dimension_numbers ["3"] ["3"] ["0"; "2"] ["0"; "2"]);
    Some (dot_dimension_numbers ["3"] ["1"] ["0"; "1"] ["0"; "2"]);
    Some (dot_dimension_numbers ["2"] ["1"] ["0"; "1"] ["0"; "2"]);
    Some (dot_dimension_numbers ["3"] ["1"] ["0"; "1"] ["0"; "2"]);
    Some (dot_dimension_numbers ["2"] ["1"] ["0"; "1"] ["0"; "2"]);
    Some (dot_dimension_numbers ["3"] ["3"] ["0"; "2"] ["0"; "2"]) ].

(** The settings no lowering ever changes. *)
Definition pinned_defaults (cfg : pyval) : Prop :=
  getitem cfg "dropout_rate" = Some (PyInt 0) /\
  getitem cfg "is_causal_mask" = Some (PyBool false) /\
  getitem cfg "is_flash_attention" = Some (PyBool false) /\
  getitem cfg "seed" = Some (PyStr "42").

(** The element-type tag stored in a configuration. *)
Definition element_type_tag (cfg : pyval) : option pyval :=
  match getitem cfg "intermediate_tensor_shape" with
  | Some its => getitem its "element_type"
  | None => None
  end.

(** ** Sample inputs *)

Definition bf16_2_128_4_64 : ShapedArray :=
  mkShapedArray [2; 128; 4; 64] bfloat16.

Definition bf16_3_128_5_64 : ShapedArray :=
  mkShapedArray [3; 128; 5; 64] bfloat16.

Definition bf16_7_99_6_64 : ShapedArray :=
  mkShapedArray [7; 99; 6; 64] bfloat16.

Definition bf16_2_128_64 : ShapedArray :=
  mkShapedArray [2; 128; 64] bfloat16.

Definition f32_2_128_64 : ShapedArray :=
  mkShapedArray [2; 128; 64] float32.

Definition f32_2_128_4_64 : ShapedArray :=
  mkShapedArray [2; 128; 4; 64] float32.

Definition scale_0_125 : pyval :=
  PyFloat (S754_finite false 4503599627370496 (-55)).

Definition tensor_bf16 (shape : list Z) : ir.Value :=
  ir.mkValue (ir.mkRankedTensorType shape ir.BF16Type).

(** ** The differentiation rule *)

Section CustomVjp.

(** [Primitive.bind] is the host's dispatch and lives outside this module;
    the [bind] of each of the two primitives is taken as a parameter, over
    whatever the host passes around (arrays, tracers, descriptors). *)
Variable Tensor : Type.
Variable _dot_product_attention_fwd_p_bind :
  Tensor -> Tensor -> Tensor -> pyval -> py (Tensor * Tensor).
Variable _dot_product_attention_bwd_p_bind :
  Tensor -> Tensor -> Tensor -> Tensor -> Tensor -> pyval ->
  py (Tensor * Tensor * Tensor).

Definition dot_product_attention_fwd
    (query key value : Tensor) (scale : pyval)
  : py (Tensor * (Tensor * Tensor * Tensor * Tensor)) :=
  '(output, activation) <-
     _dot_product_attention_fwd_p_bind query key value scale ;;
  Return (output, (activation, query, key, value)).

Definition dot_product_attention_bwd
    (scale : pyval) (res : Tensor * Tensor * Tensor * Tensor)
    (grad_output : Tensor)
  : py (Tensor * Tensor * Tensor) :=
  let '(activation, query, key, value) := res in
  '(grad_query, grad_key, grad_value) <-
     _dot_product_attention_bwd_p_bind
       grad_output query key value activation scale ;;
  Return (grad_query, grad_key, grad_value).

Definition dot_product_attention
    (query key value : Tensor) (scale : pyval) : py Tensor :=
  '(output, _) <- dot_product_attention_fwd query key value scale ;;
  Return output.

End CustomVjp.

(** ** More vocabulary *)

(** A layout lists every axis of a rank-[n] tensor once. *)
Definition axis_permutation (n : nat) (layout : list Z) : Prop :=
  NoDup layout /\ forall x, In x layout <-> 0 <= x < Z.of_nat n.

(** The shape of the tensor type of an SSA value. *)
Definition value_shape (v : ir.Value) : list Z := ir.shape (ir.type v).


(** [int(s)] on a decimal string. *)
Definition parse_int (s : string) : option Z :=
  option_map Z.of_int (NilZero.int_of_string s).

(** The strings of a list value. *)
Fixpoint strings_of (l : list pyval) : option (list string) :=
  match l with
  | [] => Some []
  | PyStr s :: l' => option_map (cons s) (strings_of l')
  | _ :: _ => None
  end.

(** The ["dimensions"] entry of a configuration. *)
Definition config_dimensions (cfg : pyval) : option (list string) :=
  match getitem cfg "intermediate_tensor_shape" with
  | Some its =>
      match getitem its "dimensions" with
      | Some (PyList l) => strings_of l
      | _ => None
      end
  | None => None
  end.

(** The ["minor_to_major"] entry of a configuration. *)
Definition config_minor_to_major (cfg : pyval) : option (list string) :=
  match getitem cfg "intermediate_tensor_shape" with
  | Some its =>
      match getitem its "layout" with
      | Some layout =>
          match getitem layout "minor_to_major" with
          | Some (PyList l) => strings_of l
          | _ => None
          end
      | None => None
      end
  | None => None
  end.

(** * Properties *)

(** ** Basic facts about the helpers *)

Lemma dtype_eqb_eq (a b : DType) : dtype_eqb a b = true <-> a = b.
Proof.
  unfold dtype_eqb. destruct (DType_eq_dec a b) as [e | n].
  - split; [intros _; exact e | reflexivity].
  - split; [discriminate | intros e; contradiction].
Qed.

Lemma dtype_eqb_refl (a : DType) : dtype_eqb a a = true.
Proof. apply dtype_eqb_eq. reflexivity. Qed.

Lemma dtype_in_half_precision (d : DType) :
  dtype_in d [float16; bfloat16] = true <-> half_precision d.
Proof.
  unfold dtype_in, half_precision. cbn [existsb].
  rewrite !orb_true_iff, !dtype_eqb_eq. intuition discriminate.
Qed.

Lemma canonicalize_x64_respects (enable_x64 : bool) :
  respects_half_precision (canonicalize_x64 enable_x64).
Proof.
  intros d. destruct enable_x64, d; cbn; split; split;
    solve [ reflexivity | discriminate ].
Qed.

Lemma bind_Return {A B : Type} (a : A) (k : A -> py B) :
  bind (Return a) k = k a.
Proof. reflexivity. Qed.

Lemma bind_Raise {A B : Type} (e : exn) (k : A -> py B) :
  bind (Raise e) k = Raise e.
Proof. reflexivity. Qed.

Lemma py_assert_true : py_assert true = Return tt.
Proof. reflexivity. Qed.

Lemma unpack4_Return {A : Type} (xs : list A) (t : A * A * A * A) :
  unpack4 xs = Return t <->
  xs = [fst (fst (fst t)); snd (fst (fst t)); snd (fst t); snd t].
Proof.
  destruct t as [[[a b] c] d]. cbn [fst snd].
  destruct xs as [| x1 [| x2 [| x3 [| x4 [| x5 xs]]]]]; cbn;
    split; intros H; try discriminate; inversion H; reflexivity.
Qed.

Lemma unpack4_rank {A : Type} (xs : list A) :
  List.length xs <> 4%nat -> unpack4 xs = Raise ValueError.
Proof.
  destruct xs as [| x1 [| x2 [| x3 [| x4 [| x5 xs]]]]]; cbn;
    intros H; try reflexivity. contradiction H; reflexivity.
Qed.

(** ** The dtype guard shared by both abstract-evaluation rules *)

Section DtypeGuard.

Variable canon : DType -> DType.
Hypothesis canon_ok : respects_half_precision canon.

Lemma canon_half_precision (d : DType) :
  half_precision (canon d) <-> half_precision d.
Proof.
  unfold half_precision. destruct (canon_ok d) as [H16 Hb16].
  rewrite H16, Hb16. reflexivity.
Qed.

Lemma canon_fixes_half_precision (d : DType) :
  half_precision d -> canon d = d.
Proof.
  intros [-> | ->]; apply canon_ok; reflexivity.
Qed.

Lemma canon_eq_half_precision (d d' : DType) :
  canon d = canon d' -> half_precision (canon d) -> d = d'.
Proof.
  intros E [H | H]; pose proof H as H'; rewrite E in H'.
  - apply (proj1 (canon_ok d)) in H. apply (proj1 (canon_ok d')) in H'.
    congruence.
  - apply (proj2 (canon_ok d)) in H. apply (proj2 (canon_ok d')) in H'.
    congruence.
Qed.

Lemma dtype_guard_spec (query key value : ShapedArray) :
  dtype_guard canon query key value = true <->
  shared_half_precision query key value.
Proof.
  unfold dtype_guard, shared_half_precision.
  rewrite !andb_true_iff, !dtype_eqb_eq, dtype_in_half_precision.
  split.
  - intros [[Eqk Ekv] Hq].
    assert (dtype query = dtype key) as E1
      by (eapply canon_eq_half_precision; eassumption).
    assert (dtype key = dtype value) as E2.
    { eapply canon_eq_half_precision; [eassumption |].
      rewrite <- Eqk. exact Hq. }
    repeat split; try assumption. apply canon_half_precision, Hq.
  - intros (-> & -> & Hq). repeat split.
    apply canon_half_precision, Hq.
Qed.

Lemma dtype_guard_false (query key value : ShapedArray) :
  ~ shared_half_precision query key value ->
  dtype_guard canon query key value = false.
Proof.
  intros Hbad. apply not_true_is_false. intros E.
  apply Hbad, dtype_guard_spec, E.
Qed.

Lemma fwd_abstract_guard (query key value : ShapedArray) (scale : pyval) :
  dtype_guard canon query key value = false ->
  _dot_product_attention_fwd_abstract canon query key value scale
  = Raise AssertionError.
Proof.
  unfold dtype_guard, _dot_product_attention_fwd_abstract. cbv zeta.
  intros H. apply andb_false_iff in H as [-> | ->]; [reflexivity |].
  destruct (_ && _); reflexivity.
Qed.

Lemma bwd_abstract_guard
    (grad_output query key value activation : ShapedArray) (scale : pyval) :
  dtype_guard canon query key value = false ->
  _dot_product_attention_bwd_abstract canon grad_output query key value
                                      activation scale
  = Raise AssertionError.
Proof.
  unfold dtype_guard, _dot_product_attention_bwd_abstract. cbv zeta.
  intros H. apply andb_false_iff in H as [-> | ->]; [reflexivity |].
  destruct (_ && _); reflexivity.
Qed.

Lemma fwd_abstract_passed (query key value : ShapedArray) (scale : pyval) :
  shared_half_precision query key value ->
  _dot_product_attention_fwd_abstract canon query key value scale
  = ('(batch_size, q_seq_len, num_heads, head_dim)
       <- unpack4 (shape query) ;;
     '(_, kv_seq_len, _, _) <- unpack4 (shape key) ;;
     Return (mkShapedArray [batch_size; q_seq_len; num_heads; head_dim]
                           (dtype query),
             mkShapedArray [batch_size; num_heads; q_seq_len; kv_seq_len]
                           (dtype query))).
Proof.
  intros H. pose proof H as (_ & _ & Hq).
  apply dtype_guard_spec in H. unfold dtype_guard in H.
  apply andb_true_iff in H as [H1 H2].
  unfold _dot_product_attention_fwd_abstract. cbv zeta.
  rewrite H1, H2, py_assert_true, !bind_Return.
  rewrite (canon_fixes_half_precision _ Hq). reflexivity.
Qed.

End DtypeGuard.

(** ** Abstract evaluation: results on valid inputs, failures on invalid
       dtypes *)

Section AbstractEvalFacts.

Variable canon : DType -> DType.
Hypothesis canon_ok : respects_half_precision canon.

(** Claim C1.  For a rank-4 query (batch, qSeqLen, numHeads, headDim) and
    rank-4 key and value whose axis 1 is kvSeqLen, all three of one dtype
    that is float16 or bfloat16, the forward rule returns exactly the pair
    of descriptors (batch, qSeqLen, numHeads, headDim) and
    (batch, numHeads, qSeqLen, kvSeqLen), both of the input dtype. *)
Theorem fwd_abstract_descriptors :
  forall (batch qSeqLen numHeads headDim : Z)
         (kBatch kvSeqLen kHeads kDim vBatch vHeads vDim : Z)
         (dt : DType) (scale : pyval),
    half_precision dt ->
    _dot_product_attention_fwd_abstract canon
      (mkShapedArray [batch; qSeqLen; numHeads; headDim] dt)
      (mkShapedArray [kBatch; kvSeqLen; kHeads; kDim] dt)
      (mkShapedArray [vBatch; kvSeqLen; vHeads; vDim] dt)
      scale
    = Return (mkShapedArray [batch; qSeqLen; numHeads; headDim] dt,
              mkShapedArray [batch; numHeads; qSeqLen; kvSeqLen] dt).
Proof.
  intros * Hdt.
  rewrite (fwd_abstract_passed canon canon_ok).
  - reflexivity.
  - repeat split; assumption.
Qed.

(** Claim C2.  When query, key and value share one dtype that is float16
    or bfloat16, the backward rule returns exactly three descriptors, and
    they carry the shape and dtype of the query, of the key and of the
    value, in this order. *)
Theorem bwd_abstract_descriptors :
  forall (grad_output query key value activation : ShapedArray)
         (scale : pyval),
    shared_half_precision query key value ->
    _dot_product_attention_bwd_abstract canon grad_output query key value
                                        activation scale
    = Return (mkShapedArray (shape query) (dtype query),
              mkShapedArray (shape key) (dtype key),
              mkShapedArray (shape value) (dtype value)).
Proof.
  intros go q k v act scale H.
  assert (half_precision (dtype q) /\ half_precision (dtype k)
          /\ half_precision (dtype v)) as (Hq & Hk & Hv).
  { destruct H as (E1 & E2 & Hq). rewrite <- E2, <- E1. auto. }
  apply (dtype_guard_spec canon canon_ok) in H.
  unfold dtype_guard in H. apply andb_true_iff in H as [H1 H2].
  unfold _dot_product_attention_bwd_abstract. cbv zeta.
  rewrite H1, H2. cbn [py_assert bind].
  rewrite !(canon_fixes_half_precision canon canon_ok) by assumption.
  reflexivity.
Qed.

(** Claim C4.  When the dtypes of query, key and value are not all equal,
    or their common dtype is neither float16 nor bfloat16, the forward and
    the backward rule both stop at their dtype assertions: the call raises
    before any shape is read, and the rules themselves never build a
    configuration or a kernel call. *)
Theorem abstract_eval_rejects_bad_dtypes :
  forall (query key value : ShapedArray),
    ~ shared_half_precision query key value ->
    (forall scale,
        _dot_product_attention_fwd_abstract canon query key value scale
        = Raise AssertionError) /\
    (forall grad_output activation scale,
        _dot_product_attention_bwd_abstract canon grad_output query key
                                            value activation scale
        = Raise AssertionError).
Proof.
  intros q k v Hbad.
  pose proof (dtype_guard_false canon canon_ok q k v Hbad) as Hg.
  split; intros.
  - apply fwd_abstract_guard, Hg.
  - apply bwd_abstract_guard, Hg.
Qed.

(** Claim C3, as the code has it.  The forward rule compares no axis of one
    input with an axis of another.  With a shared half-precision dtype, a
    rank-4 query and a rank-4 key it returns its two descriptors whatever
    the batch and head axes of the key are and whatever the shape of the
    value is: batch, qSeqLen, numHeads and headDim are read from the query
    and kvSeqLen from axis 1 of the key. *)
Theorem fwd_abstract_checks_no_axis_agreement :
  forall (batch qSeqLen numHeads headDim : Z)
         (kBatch kvSeqLen kHeads kDim : Z) (value_shape : list Z)
         (dt : DType) (scale : pyval),
    half_precision dt ->
    _dot_product_attention_fwd_abstract canon
      (mkShapedArray [batch; qSeqLen; numHeads; headDim] dt)
      (mkShapedArray [kBatch; kvSeqLen; kHeads; kDim] dt)
      (mkShapedArray value_shape dt)
      scale
    = Return (mkShapedArray [batch; qSeqLen; numHeads; headDim] dt,
              mkShapedArray [batch; numHeads; qSeqLen; kvSeqLen] dt).
Proof.
  intros * Hdt.
  rewrite (fwd_abstract_passed canon canon_ok);
    [reflexivity | repeat split; assumption].
Qed.

(** Claim C9, as the code has it.  A forward call with a rank-3 query always
    raises and returns no descriptor.  The dtype assertions run first: when
    the three dtypes pass them, the exception is the [ValueError] of
    unpacking the query shape; otherwise it is the [AssertionError] of the
    dtype check. *)
Theorem fwd_abstract_rank3_query :
  forall (query key value : ShapedArray) (scale : pyval),
    rank query = 3%nat ->
    (exists e,
        _dot_product_attention_fwd_abstract canon query key value scale
        = Raise e) /\
    (shared_half_precision query key value ->
        _dot_product_attention_fwd_abstract canon query key value scale
        = Raise ValueError) /\
    (~ shared_half_precision query key value ->
        _dot_product_attention_fwd_abstract canon query key value scale
        = Raise AssertionError).
Proof.
  intros q k v scale Hrank.
  assert (shared_half_precision q k v ->
          _dot_product_attention_fwd_abstract canon q k v scale
          = Raise ValueError) as Hvalid.
  { intros H. rewrite (fwd_abstract_passed canon canon_ok) by exact H.
    rewrite unpack4_rank; [reflexivity |].
    unfold rank in Hrank. rewrite Hrank. discriminate. }
  assert (~ shared_half_precision q k v ->
          _dot_product_attention_fwd_abstract canon q k v scale
          = Raise AssertionError) as Hinvalid.
  { intros H. apply fwd_abstract_guard, (dtype_guard_false canon canon_ok), H. }
  split; [| split; assumption].
  destruct (dtype_guard canon q k v) eqn:E.
  - exists ValueError. apply Hvalid.
    apply (dtype_guard_spec canon canon_ok), E.
  - exists AssertionError. apply fwd_abstract_guard, E.
Qed.

End AbstractEvalFacts.

(** Claim C10.  The backward rule looks only at query, key and value: two
    calls that agree on these three descriptors give the same outcome (the
    same three descriptors, or the same exception), whatever their
    grad-output and activation descriptors and whatever their scale. *)
Theorem bwd_abstract_ignores_grad_and_activation :
  forall (canon : DType -> DType)
         (query key value : ShapedArray)
         (grad_output1 activation1 grad_output2 activation2 : ShapedArray)
         (scale1 scale2 : pyval),
    _dot_product_attention_bwd_abstract canon grad_output1 query key value
                                        activation1 scale1
    = _dot_product_attention_bwd_abstract canon grad_output2 query key value
                                          activation2 scale2.
Proof.
  intros. unfold _dot_product_attention_bwd_abstract. reflexivity.
Qed.

(** *** Concrete runs *)

Lemma fwd_abstract_descriptors_witness :
  half_precision bfloat16 /\
  _dot_product_attention_fwd_abstract (canonicalize_x64 false)
    bf16_2_128_4_64 bf16_2_128_4_64 bf16_2_128_4_64 scale_0_125
  = Return (mkShapedArray [2; 128; 4; 64] bfloat16,
            mkShapedArray [2; 4; 128; 128] bfloat16).
Proof.
  split.
  - right; reflexivity.
  - apply (fwd_abstract_descriptors (canonicalize_x64 false)
             (canonicalize_x64_respects false)
             2 128 4 64 2 128 4 64 2 4 64 bfloat16 scale_0_125).
    right; reflexivity.
Defined.

Lemma bwd_abstract_descriptors_witness :
  _dot_product_attention_bwd_abstract (canonicalize_x64 false)
    bf16_2_128_4_64 bf16_2_128_4_64 bf16_2_128_4_64 bf16_2_128_4_64
    (mkShapedArray [2; 4; 128; 128] bfloat16) scale_0_125
  = Return (bf16_2_128_4_64, bf16_2_128_4_64, bf16_2_128_4_64).
Proof.
  apply (bwd_abstract_descriptors (canonicalize_x64 false)
           (canonicalize_x64_respects false)).
  repeat split; right; reflexivity.
Defined.

Lemma abstract_eval_rejects_bad_dtypes_witness :
  _dot_product_attention_fwd_abstract (canonicalize_x64 false)
    (mkShapedArray [2; 128; 4; 64] float16)
    (mkShapedArray [2; 128; 4; 64] bfloat16)
    (mkShapedArray [2; 128; 4; 64] float16) scale_0_125
  = Raise AssertionError.
Proof.
  apply (abstract_eval_rejects_bad_dtypes (canonicalize_x64 false)
           (canonicalize_x64_respects false)).
  intros (E & _). discriminate E.
Defined.

(** Claim C3 does not hold as stated: the three inputs below disagree on the
    batch axis, on the head-count axis and (key against value) on the
    sequence axis, and the forward rule still returns its two descriptors. *)
Lemma fwd_abstract_accepts_disagreeing_axes :
  axes_disagree bf16_2_128_4_64 bf16_3_128_5_64 bf16_7_99_6_64 /\
  _dot_product_attention_fwd_abstract (canonicalize_x64 false)
    bf16_2_128_4_64 bf16_3_128_5_64 bf16_7_99_6_64 scale_0_125
  = Return (mkShapedArray [2; 128; 4; 64] bfloat16,
            mkShapedArray [2; 4; 128; 128] bfloat16) /\
  ~ (exists e,
        _dot_product_attention_fwd_abstract (canonicalize_x64 false)
          bf16_2_128_4_64 bf16_3_128_5_64 bf16_7_99_6_64 scale_0_125
        = Raise e).
Proof.
  split; [| split].
  - left. cbn. discriminate.
  - reflexivity.
  - intros [e H]. discriminate H.
Qed.

Lemma fwd_abstract_checks_no_axis_agreement_witness :
  _dot_product_attention_fwd_abstract (canonicalize_x64 false)
    bf16_2_128_4_64 bf16_3_128_5_64
    (mkShapedArray [7; 99] bfloat16) scale_0_125
  = Return (mkShapedArray [2; 128; 4; 64] bfloat16,
            mkShapedArray [2; 4; 128; 128] bfloat16).
Proof.
  apply (fwd_abstract_checks_no_axis_agreement (canonicalize_x64 false)
           (canonicalize_x64_respects false)).
  right; reflexivity.
Defined.

(** Claim C9 does not hold as stated: with a rank-3 query of dtype float32
    the call stops at the dtype assertion, not at the unpacking of the
    query shape. *)
Lemma fwd_abstract_rank3_float32_query :
  rank f32_2_128_64 = 3%nat /\
  _dot_product_attention_fwd_abstract (canonicalize_x64 false)
    f32_2_128_64 f32_2_128_4_64 f32_2_128_4_64 scale_0_125
  = Raise AssertionError /\
  _dot_product_attention_fwd_abstract (canonicalize_x64 false)
    f32_2_128_64 f32_2_128_4_64 f32_2_128_4_64 scale_0_125
  <> Raise ValueError.
Proof.
  split; [reflexivity | split; [reflexivity | discriminate]].
Qed.

Lemma fwd_abstract_rank3_query_witness :
  rank bf16_2_128_64 = 3%nat /\
  _dot_product_attention_fwd_abstract (canonicalize_x64 false)
    bf16_2_128_64 bf16_2_128_4_64 bf16_2_128_4_64 scale_0_125
  = Raise ValueError.
Proof.
  split; [reflexivity |].
  apply (fwd_abstract_rank3_query (canonicalize_x64 false)
           (canonicalize_x64_respects false)
           bf16_2_128_64 bf16_2_128_4_64 bf16_2_128_4_64 scale_0_125).
  - reflexivity.
  - repeat split; right; reflexivity.
Defined.

(** ** The backend configuration *)

(** The encoder never raises: it returns a dictionary for every argument. *)
Lemma backend_config_returns
    (batch_size num_heads seq_q seq_kv : Z) (dtype : ir.Type_)
    (fmha_scale dropout_rate is_flash_attention is_causal_mask : pyval) :
  exists d,
    create_dot_product_attention_backend_config
      batch_size num_heads seq_q seq_kv dtype
      fmha_scale dropout_rate is_flash_attention is_causal_mask
    = Return (PyDict d).
Proof. eexists. reflexivity. Qed.

(** The encoder stores its last four arguments and the seed under their
    keys. *)
Lemma backend_config_settings
    (batch_size num_heads seq_q seq_kv : Z) (dtype : ir.Type_)
    (fmha_scale dropout_rate is_flash_attention is_causal_mask cfg : pyval) :
  create_dot_product_attention_backend_config
    batch_size num_heads seq_q seq_kv dtype
    fmha_scale dropout_rate is_flash_attention is_causal_mask
  = Return cfg ->
  getitem cfg "fmha_scale" = Some fmha_scale /\
  getitem cfg "dropout_rate" = Some dropout_rate /\
  getitem cfg "is_flash_attention" = Some is_flash_attention /\
  getitem cfg "is_causal_mask" = Some is_causal_mask /\
  getitem cfg "seed" = Some (PyStr "42").
Proof.
  unfold create_dot_product_attention_backend_config.
  intros H. injection H as <-. repeat split.
Qed.

Lemma element_type_mapping_cases (dtype : ir.Type_) :
  element_type_to_backend_config_type_mapping dtype
  = match dtype with
    | ir.BF16Type => PyStr "BF16"
    | ir.F16Type => PyStr "F16"
    | _ => PyNone
    end.
Proof. destruct dtype; reflexivity. Qed.

(** Claim C5.  The encoder is deterministic: two calls with the same nine
    arguments both return, and return the same dictionary, so every field
    of one record equals the same field of the other. *)
Theorem backend_config_deterministic :
  forall (batch_size1 num_heads1 seq_q1 seq_kv1 : Z) (dtype1 : ir.Type_)
         (fmha_scale1 dropout_rate1 is_flash1 is_causal1 : pyval)
         (batch_size2 num_heads2 seq_q2 seq_kv2 : Z) (dtype2 : ir.Type_)
         (fmha_scale2 dropout_rate2 is_flash2 is_causal2 : pyval),
    (batch_size1, num_heads1, seq_q1, seq_kv1, dtype1,
     fmha_scale1, dropout_rate1, is_flash1, is_causal1)
    = (batch_size2, num_heads2, seq_q2, seq_kv2, dtype2,
       fmha_scale2, dropout_rate2, is_flash2, is_causal2) ->
    exists cfg1 cfg2,
      create_dot_product_attention_backend_config
        batch_size1 num_heads1 seq_q1 seq_kv1 dtype1
        fmha_scale1 dropout_rate1 is_flash1 is_causal1 = Return cfg1 /\
      create_dot_product_attention_backend_config
        batch_size2 num_heads2 seq_q2 seq_kv2 dtype2
        fmha_scale2 dropout_rate2 is_flash2 is_causal2 = Return cfg2 /\
      cfg1 = cfg2 /\
      (forall key, getitem cfg1 key = getitem cfg2 key).
Proof.
  intros * E. inversion E; subst; clear E.
  do 2 eexists. repeat split; reflexivity.
Qed.

Lemma backend_config_deterministic_witness :
  exists cfg1 cfg2,
    create_dot_product_attention_backend_config
      2 4 128 128 ir.BF16Type
      scale_0_125 (PyInt 0) (PyBool false) (PyBool false) = Return cfg1 /\
    create_dot_product_attention_backend_config
      2 4 128 128 ir.BF16Type
      scale_0_125 (PyInt 0) (PyBool false) (PyBool false) = Return cfg2 /\
    cfg1 = cfg2 /\
    (forall key, getitem cfg1 key = getitem cfg2 key).
Proof.
  apply (backend_config_deterministic
           2 4 128 128 ir.BF16Type
           scale_0_125 (PyInt 0) (PyBool false) (PyBool false)
           2 4 128 128 ir.BF16Type
           scale_0_125 (PyInt 0) (PyBool false) (PyBool false)).
  reflexivity.
Defined.

(** The six dimension-numbering blocks every configuration carries. *)
Lemma backend_config_dimension_blocks
    (batch_size num_heads seq_q seq_kv : Z) (dtype : ir.Type_)
    (fmha_scale dropout_rate is_flash_attention is_causal_mask cfg : pyval) :
  create_dot_product_attention_backend_config
    batch_size num_heads seq_q seq_kv dtype
    fmha_scale dropout_rate is_flash_attention is_causal_mask
  = Return cfg ->
  dimension_blocks cfg = fixed_dimension_blocks.
Proof.
  unfold create_dot_product_attention_backend_config.
  intros H. injection H as <-. reflexivity.
Qed.

(** Claim C6.  Two encoder calls that differ only in batch size, head
    count and the two sequence lengths return configurations whose six
    dimension-numbering blocks are equal, block by block; the contracting
    and batch axis indices are the constants of [fixed_dimension_blocks]. *)
Theorem dimension_numbering_independent_of_shape :
  forall (batch_size1 num_heads1 seq_q1 seq_kv1 : Z)
         (batch_size2 num_heads2 seq_q2 seq_kv2 : Z)
         (dtype : ir.Type_)
         (fmha_scale dropout_rate is_flash_attention is_causal_mask : pyval),
    exists cfg1 cfg2,
      create_dot_product_attention_backend_config
        batch_size1 num_heads1 seq_q1 seq_kv1 dtype
        fmha_scale dropout_rate is_flash_attention is_causal_mask
      = Return cfg1 /\
      create_dot_product_attention_backend_config
        batch_size2 num_heads2 seq_q2 seq_kv2 dtype
        fmha_scale dropout_rate is_flash_attention is_causal_mask
      = Return cfg2 /\
      dimension_blocks cfg1 = dimension_blocks cfg2 /\
      dimension_blocks cfg1 = fixed_dimension_blocks.
Proof.
  intros b1 h1 q1 k1 b2 h2 q2 k2 ty scale rate flash causal.
  destruct (backend_config_returns b1 h1 q1 k1 ty scale rate flash causal)
    as [d1 H1].
  destruct (backend_config_returns b2 h2 q2 k2 ty scale rate flash causal)
    as [d2 H2].
  exists (PyDict d1), (PyDict d2).
  pose proof (backend_config_dimension_blocks _ _ _ _ _ _ _ _ _ _ H1) as B1.
  pose proof (backend_config_dimension_blocks _ _ _ _ _ _ _ _ _ _ H2) as B2.
  repeat split; try assumption. congruence.
Qed.

(** Claim C8 does not hold as stated: float32 has no backend type tag, and
    the encoder still returns a configuration. *)
Lemma backend_config_accepts_untagged_dtype :
  element_type_to_backend_config_type_mapping ir.F32Type = PyNone /\
  (exists cfg,
      create_dot_product_attention_backend_config
        2 4 128 128 ir.F32Type
        scale_0_125 (PyInt 0) (PyBool false) (PyBool false)
      = Return cfg) /\
  ~ (exists e,
        create_dot_product_attention_backend_config
          2 4 128 128 ir.F32Type
          scale_0_125 (PyInt 0) (PyBool false) (PyBool false)
        = Raise e).
Proof.
  split; [reflexivity | split].
  - eexists. reflexivity.
  - intros [e H]. discriminate H.
Qed.

(** Claim C8, as the code has it.  The tag table is consulted with [get]:
    for a dtype other than the bfloat16 and float16 tensor element types
    the lookup gives [None], the encoder does not raise, and the
    configuration it returns carries [None] as the element type of the
    intermediate tensor. *)
Theorem backend_config_untagged_dtype :
  forall (batch_size num_heads seq_q seq_kv : Z) (dtype : ir.Type_)
         (fmha_scale dropout_rate is_flash_attention is_causal_mask : pyval),
    dtype <> ir.BF16Type -> dtype <> ir.F16Type ->
    element_type_to_backend_config_type_mapping dtype = PyNone /\
    exists cfg,
      create_dot_product_attention_backend_config
        batch_size num_heads seq_q seq_kv dtype
        fmha_scale dropout_rate is_flash_attention is_causal_mask
      = Return cfg /\
      element_type_tag cfg = Some PyNone.
Proof.
  intros b h q k ty scale rate flash causal Hbf Hf.
  assert (element_type_to_backend_config_type_mapping ty = PyNone) as E.
  { rewrite element_type_mapping_cases.
    destruct ty; try reflexivity; congruence. }
  split; [exact E |].
  eexists. split; [reflexivity |].
  unfold element_type_tag. cbn. exact (f_equal Some E).
Qed.

Lemma backend_config_untagged_dtype_witness :
  element_type_to_backend_config_type_mapping ir.F32Type = PyNone /\
  exists cfg,
    create_dot_product_attention_backend_config
      2 4 128 128 ir.F32Type
      scale_0_125 (PyInt 0) (PyBool false) (PyBool false)
    = Return cfg /\
    element_type_tag cfg = Some PyNone.
Proof.
  apply (backend_config_untagged_dtype
           2 4 128 128 ir.F32Type
           scale_0_125 (PyInt 0) (PyBool false) (PyBool false));
    discriminate.
Defined.

(** ** The lowerings *)

(** Both lowerings hand the encoder the same last three arguments. *)
Lemma fwd_lowering_config
    (ctx : LoweringRuleContext) (query key value : ir.Value) (scale : pyval)
    (op : CustomCall) :
  _dot_product_attention_fwd_cuda_lowering ctx query key value scale
  = Return op ->
  exists batch_size num_heads seq_q seq_kv,
    create_dot_product_attention_backend_config
      batch_size num_heads seq_q seq_kv
      (ir.element_type (ir.type query)) scale
      (PyInt 0) (PyBool false) (PyBool false)
    = Return (backend_config op).
Proof.
  unfold _dot_product_attention_fwd_cuda_lowering. cbv zeta.
  destruct (unpack4 (ir.shape (ir.type query)))
    as [[[[b q] h] d] | e]; [| discriminate].
  destruct (unpack4 (ir.shape (ir.type key)))
    as [[[[kb kv] kh] kd] | e]; [| discriminate].
  cbn. intros H. injection H as <-. exists b, h, q, kv. reflexivity.
Qed.

Lemma bwd_lowering_config
    (ctx : LoweringRuleContext)
    (grad_output query key value activation : ir.Value) (scale : pyval)
    (op : CustomCall) :
  _dot_product_attention_bwd_cuda_lowering ctx grad_output query key value
                                           activation scale
  = Return op ->
  exists batch_size num_heads seq_q seq_kv,
    create_dot_product_attention_backend_config
      batch_size num_heads seq_q seq_kv
      (ir.element_type (ir.type query)) scale
      (PyInt 0) (PyBool false) (PyBool false)
    = Return (backend_config op).
Proof.
  unfold _dot_product_attention_bwd_cuda_lowering. cbv zeta.
  destruct (unpack4 (ir.shape (ir.type query)))
    as [[[[b q] h] d] | e]; [| discriminate].
  destruct (unpack4 (ir.shape (ir.type key)))
    as [[[[kb kv] kh] kd] | e]; [| discriminate].
  cbn. intros H. injection H as <-. exists b, h, q, kv. reflexivity.
Qed.

(** On rank-4 query and key the lowerings do return a kernel call. *)
Lemma fwd_lowering_returns
    (ctx : LoweringRuleContext) (query key value : ir.Value) (scale : pyval) :
  List.length (ir.shape (ir.type query)) = 4%nat ->
  List.length (ir.shape (ir.type key)) = 4%nat ->
  exists op,
    _dot_product_attention_fwd_cuda_lowering ctx query key value scale
    = Return op /\
    call_target_name op = "__cudnn$fhmaSoftmax" /\
    operands op = [query; key; value].
Proof.
  destruct query as [[qs qt]], key as [[ks kt]]. cbn [ir.type ir.shape].
  intros Hq Hk.
  destruct qs as [| b [| q [| h [| d [| ? ?]]]]]; try discriminate Hq.
  destruct ks as [| kb [| kv [| kh [| kd [| ? ?]]]]]; try discriminate Hk.
  eexists. split; [reflexivity | split; reflexivity].
Qed.

Lemma bwd_lowering_returns
    (ctx : LoweringRuleContext)
    (grad_output query key value activation : ir.Value) (scale : pyval) :
  List.length (ir.shape (ir.type query)) = 4%nat ->
  List.length (ir.shape (ir.type key)) = 4%nat ->
  exists op,
    _dot_product_attention_bwd_cuda_lowering ctx grad_output query key value
                                             activation scale
    = Return op /\
    call_target_name op = "__cudnn$fhmaSoftmaxBackward" /\
    operands op = [query; key; value; activation].
Proof.
  destruct query as [[qs qt]], key as [[ks kt]]. cbn [ir.type ir.shape].
  intros Hq Hk.
  destruct qs as [| b [| q [| h [| d [| ? ?]]]]]; try discriminate Hq.
  destruct ks as [| kb [| kv [| kh [| kd [| ? ?]]]]]; try discriminate Hk.
  eexists. split; [reflexivity | split; reflexivity].
Qed.

(** Claim C7.  Every configuration a forward or a backward lowering builds
    has dropout rate 0, causal-mask flag false, flash-attention flag false
    and seed "42", whatever the shapes, the element type and the scale of
    the call. *)
Theorem lowering_config_pinned_defaults :
  (forall (ctx : LoweringRuleContext) (query key value : ir.Value)
          (scale : pyval) (op : CustomCall),
      _dot_product_attention_fwd_cuda_lowering ctx query key value scale
      = Return op ->
      pinned_defaults (backend_config op)) /\
  (forall (ctx : LoweringRuleContext)
          (grad_output query key value activation : ir.Value)
          (scale : pyval) (op : CustomCall),
      _dot_product_attention_bwd_cuda_lowering ctx grad_output query key
                                               value activation scale
      = Return op ->
      pinned_defaults (backend_config op)).
Proof.
  split.
  - intros ctx q k v scale op H.
    apply fwd_lowering_config in H as (b & h & sq & skv & H).
    apply backend_config_settings in H as (_ & Hd & Hf & Hc & Hs).
    repeat split; assumption.
  - intros ctx go q k v act scale op H.
    apply bwd_lowering_config in H as (b & h & sq & skv & H).
    apply backend_config_settings in H as (_ & Hd & Hf & Hc & Hs).
    repeat split; assumption.
Qed.

Lemma lowering_config_pinned_defaults_witness :
  (exists op,
      _dot_product_attention_fwd_cuda_lowering tt
        (tensor_bf16 [2; 128; 4; 64]) (tensor_bf16 [2; 128; 4; 64])
        (tensor_bf16 [2; 128; 4; 64]) scale_0_125 = Return op /\
      pinned_defaults (backend_config op)) /\
  (exists op,
      _dot_product_attention_bwd_cuda_lowering tt
        (tensor_bf16 [2; 128; 4; 64])
        (tensor_bf16 [2; 128; 4; 64]) (tensor_bf16 [2; 128; 4; 64])
        (tensor_bf16 [2; 128; 4; 64]) (tensor_bf16 [2; 4; 128; 128])
        scale_0_125 = Return op /\
      pinned_defaults (backend_config op)).
Proof.
  split; eexists; (split; [reflexivity |]).
  - apply (proj1 lowering_config_pinned_defaults tt
             (tensor_bf16 [2; 128; 4; 64]) (tensor_bf16 [2; 128; 4; 64])
             (tensor_bf16 [2; 128; 4; 64]) scale_0_125).
    reflexivity.
  - apply (proj2 lowering_config_pinned_defaults tt
             (tensor_bf16 [2; 128; 4; 64])
             (tensor_bf16 [2; 128; 4; 64]) (tensor_bf16 [2; 128; 4; 64])
             (tensor_bf16 [2; 128; 4; 64]) (tensor_bf16 [2; 4; 128; 128])
             scale_0_125).
    reflexivity.
Defined.

(** ** Layouts *)

Lemma range_down_length (n : nat) : List.length (range_down n) = n.
Proof. induction n as [| n IH]; cbn; [reflexivity | now rewrite IH]. Qed.

Lemma range_down_In (n : nat) (x : Z) :
  In x (range_down n) <-> 0 <= x < Z.of_nat n.
Proof.
  induction n as [| n IH]; cbn [range_down In].
  - lia.
  - rewrite IH. lia.
Qed.

Lemma range_down_NoDup (n : nat) : NoDup (range_down n).
Proof.
  induction n as [| n IH]; cbn [range_down]; constructor.
  - rewrite range_down_In. lia.
  - exact IH.
Qed.

(** [range(n - 1, -1, -1)] is the ascending enumeration of the axes
    0 .. n-1 read backwards. *)
Lemma range_down_rev_seq :
  forall n : nat, range_down n = rev (map Z.of_nat (seq 0 n)).
Proof.
  induction n as [| n IH].
  - reflexivity.
  - rewrite seq_S, map_app, rev_app_distr. cbn [range_down].
    rewrite IH. reflexivity.
Qed.

(** Extra X1.  The layout of the [j]-th shape has as many entries as the
    shape has axes, and its entry [i] is the axis [rank - 1 - i]. *)
Theorem default_layouts_entry :
  forall (shapes : list (list Z)) (j : nat) (shape : list Z) (i : nat),
    nth_error shapes j = Some shape ->
    (i < List.length shape)%nat ->
    exists layout,
      nth_error (default_layouts shapes) j = Some layout /\
      List.length layout = List.length shape /\
      nth_error layout i
      = Some (Z.of_nat (List.length shape) - 1 - Z.of_nat i).
Proof.
  intros shapes j shp i Hj Hi.
  exists (range_down (List.length shp)). split; [| split].
  - unfold default_layouts. rewrite nth_error_map, Hj. reflexivity.
  - apply range_down_length.
  - clear Hj. revert i Hi. generalize (List.length shp) as n.
    induction n as [| n IH]; intros i Hi; [lia |].
    destruct i as [| i]; cbn [range_down nth_error].
    + f_equal. lia.
    + rewrite IH by lia. f_equal. lia.
Qed.

Lemma default_layouts_entry_witness :
  exists layout,
    nth_error (default_layouts [[2; 128; 4; 64]; [2; 4; 128]]) 1
    = Some layout /\
    List.length layout = 3%nat /\
    nth_error layout 0 = Some 2.
Proof.
  apply (default_layouts_entry [[2; 128; 4; 64]; [2; 4; 128]] 1
           [2; 4; 128] 0).
  - reflexivity.
  - cbn. lia.
Defined.

(** Extra X2.  Every layout [default_layouts] returns is a permutation of
    the axes of its shape: each axis 0 .. rank-1 occurs, once, and nothing
    else does; and there is one layout per shape. *)
Theorem default_layouts_axis_permutations :
  forall shapes : list (list Z),
    List.length (default_layouts shapes) = List.length shapes /\
    Forall2 (fun shape layout =>
               axis_permutation (List.length shape) layout)
            shapes (default_layouts shapes).
Proof.
  intros shapes. split.
  - unfold default_layouts. apply length_map.
  - induction shapes as [| shp shapes IH]; cbn; constructor.
    + split; [apply range_down_NoDup | apply range_down_In].
    + exact IH.
Qed.

(** Extra X3.  Layouts depend on the ranks of the shapes only, never on the
    axis lengths: shape lists with the same ranks get the same layouts. *)
Theorem default_layouts_rank_only :
  forall shapes1 shapes2 : list (list Z),
    map (@List.length Z) shapes1 = map (@List.length Z) shapes2 ->
    default_layouts shapes1 = default_layouts shapes2.
Proof.
  unfold default_layouts.
  induction shapes1 as [| s1 shapes1 IH]; intros [| s2 shapes2] H;
    try discriminate H; [reflexivity |].
  cbn [map] in H |- *. injection H as Hlen Hrest.
  rewrite Hlen, (IH shapes2 Hrest). reflexivity.
Qed.

Lemma default_layouts_rank_only_witness :
  default_layouts [[2; 128; 4; 64]; [7; 9]]
  = default_layouts [[1; 1; 1; 1]; [0; 5]].
Proof.
  apply (default_layouts_rank_only [[2; 128; 4; 64]; [7; 9]]
           [[1; 1; 1; 1]; [0; 5]]).
  reflexivity.
Defined.

(** ** Abstract evaluation: exactly when it returns, and what *)

Lemma unpack4_length {A : Type} (xs : list A) :
  List.length xs = 4%nat ->
  exists a b c d, xs = [a; b; c; d] /\ unpack4 xs = Return (a, b, c, d).
Proof.
  destruct xs as [| a [| b [| c [| d [| e xs]]]]]; cbn; intros H;
    try discriminate H.
  exists a, b, c, d. split; reflexivity.
Qed.

Lemma unpack4_outcome {A : Type} (xs : list A) :
  (List.length xs = 4%nat /\ exists t, unpack4 xs = Return t) \/
  (List.length xs <> 4%nat /\ unpack4 xs = Raise ValueError).
Proof.
  destruct (Nat.eq_dec (List.length xs) 4) as [E | N].
  - left. split; [exact E |].
    destruct (unpack4_length xs E) as (a & b & c & d & _ & H).
    eexists; exact H.
  - right. split; [exact N | apply unpack4_rank, N].
Qed.

Section AbstractEvalOutcomes.

Variable canon : DType -> DType.
Hypothesis canon_ok : respects_half_precision canon.

Lemma fwd_abstract_Return_inv
    (query key value : ShapedArray) (scale : pyval)
    (r : ShapedArray * ShapedArray) :
  _dot_product_attention_fwd_abstract canon query key value scale
  = Return r ->
  shared_half_precision query key value /\
  rank query = 4%nat /\ rank key = 4%nat.
Proof.
  intros H.
  destruct (dtype_guard canon query key value) eqn:G.
  - apply (dtype_guard_spec canon canon_ok) in G.
    rewrite (fwd_abstract_passed canon canon_ok _ _ _ _ G) in H.
    split; [exact G |]. unfold rank.
    destruct (unpack4_outcome (shape query)) as [[Lq [tq Eq]] | [Lq Eq]];
      rewrite Eq in H; [| discriminate H].
    destruct tq as [[[b sq] h] d]. cbn [bind] in H.
    destruct (unpack4_outcome (shape key)) as [[Lk [tk Ek]] | [Lk Ek]];
      rewrite Ek in H; [| discriminate H].
    split; assumption.
  - rewrite (fwd_abstract_guard canon _ _ _ _ G) in H. discriminate H.
Qed.

(** Extra X4.  The forward rule returns descriptors exactly when the three
    dtypes are one half-precision dtype and both the query and the key have
    rank 4.  The rank of the value plays no part. *)
Theorem fwd_abstract_returns_iff :
  forall (query key value : ShapedArray) (scale : pyval),
    (exists r,
        _dot_product_attention_fwd_abstract canon query key value scale
        = Return r) <->
    shared_half_precision query key value /\
    rank query = 4%nat /\ rank key = 4%nat.
Proof.
  intros q k v scale. split.
  - intros [r H]. exact (fwd_abstract_Return_inv _ _ _ _ _ H).
  - intros (G & Lq & Lk).
    rewrite (fwd_abstract_passed canon canon_ok _ _ _ _ G).
    destruct (unpack4_length _ Lq) as (b & sq & h & d & _ & ->).
    destruct (unpack4_length _ Lk) as (kb & kv & kh & kd & _ & ->).
    eexists. reflexivity.
Qed.


(** Extra X6.  The two failures of the forward rule are told apart by the
    inputs: it raises [AssertionError] exactly when the dtype condition
    fails, and [ValueError] exactly when the dtype condition holds and the
    query or the key is not of rank 4. *)
Theorem fwd_abstract_failures :
  forall (query key value : ShapedArray) (scale : pyval),
    (_dot_product_attention_fwd_abstract canon query key value scale
     = Raise AssertionError <->
     ~ shared_half_precision query key value) /\
    (_dot_product_attention_fwd_abstract canon query key value scale
     = Raise ValueError <->
     shared_half_precision query key value /\
     (rank query <> 4%nat \/ rank key <> 4%nat)).
Proof.
  intros q k v scale.
  destruct (dtype_guard canon q k v) eqn:G.
  - apply (dtype_guard_spec canon canon_ok) in G.
    rewrite (fwd_abstract_passed canon canon_ok _ _ _ _ G). unfold rank.
    destruct (unpack4_outcome (shape q)) as [[Lq [tq Eq]] | [Lq Eq]];
      rewrite Eq; cbn [bind].
    + destruct tq as [[[b sq] h] d].
      destruct (unpack4_outcome (shape k)) as [[Lk [tk Ek]] | [Lk Ek]];
        rewrite Ek; cbn [bind].
      * destruct tk as [[[kb kv] kh] kd].
        split; split; try discriminate; try tauto.
      * split; split; try discriminate; try tauto.
    + split; split; try discriminate; try tauto.
  - rewrite (fwd_abstract_guard canon _ _ _ _ G).
    assert (~ shared_half_precision q k v) as Hbad.
    { intros H. apply (dtype_guard_spec canon canon_ok) in H. congruence. }
    split; split; try discriminate; try tauto.
Qed.

(** Extra X7.  The backward rule returns exactly when the three dtypes are
    one half-precision dtype, for descriptors of any rank; its only failure
    is the [AssertionError] of the dtype check. *)
Theorem bwd_abstract_returns_iff :
  forall (grad_output query key value activation : ShapedArray)
         (scale : pyval),
    ((exists r,
         _dot_product_attention_bwd_abstract canon grad_output query key
                                             value activation scale
         = Return r) <->
     shared_half_precision query key value) /\
    _dot_product_attention_bwd_abstract canon grad_output query key value
                                        activation scale
    <> Raise ValueError.
Proof.
  intros go q k v act scale.
  destruct (dtype_guard canon q k v) eqn:G.
  - pose proof G as G'. apply (dtype_guard_spec canon canon_ok) in G'.
    unfold dtype_guard in G. apply andb_true_iff in G as [G1 G2].
    unfold _dot_product_attention_bwd_abstract. cbv zeta.
    rewrite G1, G2. cbn [py_assert bind].
    split; [split; [intros _; exact G' | intros _; eexists; reflexivity]
           | discriminate].
  - rewrite (bwd_abstract_guard canon _ _ _ _ _ _ G).
    split; [| discriminate].
    split; [intros [r H]; discriminate H |].
    intros H. apply (dtype_guard_spec canon canon_ok) in H. congruence.
Qed.

End AbstractEvalOutcomes.

(** Extra X8.  The forward rule reads the dtype of the value and axis 1 of
    the key, and nothing else of either; it does not read the scale.  Two
    calls with the same query, keys of rank 4 with the same dtype and the
    same axis 1, and values of the same dtype have the same outcome. *)
Theorem fwd_abstract_reads :
  forall (canon : DType -> DType)
         (query key1 key2 value1 value2 : ShapedArray)
         (scale1 scale2 : pyval),
    dtype key1 = dtype key2 ->
    rank key1 = 4%nat -> rank key2 = 4%nat ->
    axis key1 1 = axis key2 1 ->
    dtype value1 = dtype value2 ->
    _dot_product_attention_fwd_abstract canon query key1 value1 scale1
    = _dot_product_attention_fwd_abstract canon query key2 value2 scale2.
Proof.
  intros canon q k1 k2 v1 v2 s1 s2 Hd L1 L2 Hax Hv.
  unfold _dot_product_attention_fwd_abstract. cbv zeta.
  rewrite Hd, Hv.
  destruct (unpack4_length _ L1) as (a1 & b1 & c1 & d1 & S1 & ->).
  destruct (unpack4_length _ L2) as (a2 & b2 & c2 & d2 & S2 & ->).
  unfold axis in Hax. rewrite S1, S2 in Hax. cbn in Hax.
  injection Hax as ->. reflexivity.
Qed.

Lemma fwd_abstract_returns_iff_witness :
  exists r,
    _dot_product_attention_fwd_abstract (canonicalize_x64 false)
      bf16_2_128_4_64 bf16_3_128_5_64 bf16_2_128_64 scale_0_125
    = Return r.
Proof.
  apply (fwd_abstract_returns_iff (canonicalize_x64 false)
           (canonicalize_x64_respects false)
           bf16_2_128_4_64 bf16_3_128_5_64 bf16_2_128_64 scale_0_125).
  repeat split; right; reflexivity.
Defined.


Lemma fwd_abstract_failures_witness :
  _dot_product_attention_fwd_abstract (canonicalize_x64 false)
    bf16_2_128_4_64 bf16_2_128_64 bf16_2_128_4_64 scale_0_125
  = Raise ValueError.
Proof.
  apply (fwd_abstract_failures (canonicalize_x64 false)
           (canonicalize_x64_respects false)
           bf16_2_128_4_64 bf16_2_128_64 bf16_2_128_4_64 scale_0_125).
  split.
  - repeat split; right; reflexivity.
  - right. cbn. discriminate.
Defined.

Lemma bwd_abstract_returns_iff_witness :
  exists r,
    _dot_product_attention_bwd_abstract (canonicalize_x64 false)
      f32_2_128_64 bf16_2_128_64 bf16_2_128_64 bf16_7_99_6_64
      f32_2_128_4_64 scale_0_125
    = Return r.
Proof.
  apply (bwd_abstract_returns_iff (canonicalize_x64 false)
           (canonicalize_x64_respects false)
           f32_2_128_64 bf16_2_128_64 bf16_2_128_64 bf16_7_99_6_64
           f32_2_128_4_64 scale_0_125).
  repeat split; right; reflexivity.
Defined.

Lemma fwd_abstract_reads_witness :
  _dot_product_attention_fwd_abstract (canonicalize_x64 false)
    bf16_2_128_4_64 bf16_2_128_4_64 bf16_2_128_4_64 scale_0_125
  = _dot_product_attention_fwd_abstract (canonicalize_x64 false)
      bf16_2_128_4_64 bf16_3_128_5_64 bf16_7_99_6_64 PyNone.
Proof.
  apply (fwd_abstract_reads (canonicalize_x64 false)
           bf16_2_128_4_64 bf16_2_128_4_64 bf16_3_128_5_64
           bf16_2_128_4_64 bf16_7_99_6_64 scale_0_125 PyNone);
    reflexivity.
Defined.

(** ** The kernel calls the lowerings build *)

Lemma ranked_tensor_eta (t : ir.RankedTensorType) :
  ir.mkRankedTensorType (ir.shape t) (ir.element_type t) = t.
Proof. destruct t; reflexivity. Qed.

(** The forward lowering, run on a rank-4 query and key. *)
Lemma fwd_lowering_rank4
    (ctx : LoweringRuleContext) (query key value : ir.Value) (scale : pyval)
    (b sq h d kb kv kh kd : Z) :
  value_shape query = [b; sq; h; d] ->
  value_shape key = [kb; kv; kh; kd] ->
  exists opaque,
    create_dot_product_attention_backend_config
      b h sq kv (ir.element_type (ir.type query)) scale
      (PyInt 0) (PyBool false) (PyBool false) = Return opaque /\
    _dot_product_attention_fwd_cuda_lowering ctx query key value scale
    = Return
        (mkCustomCall "__cudnn$fhmaSoftmax"
           [ ir.mkRankedTensorType [b; sq; h; d]
               (ir.element_type (ir.type query));
             ir.mkRankedTensorType [b; h; sq; kv]
               (ir.element_type (ir.type query)) ]
           [ query; key; value ]
           opaque
           (default_layouts
              [value_shape query; value_shape key; value_shape value])
           (default_layouts [[b; sq; h; d]; [b; h; sq; kv]])).
Proof.
  unfold value_shape. intros Hq Hk.
  unfold _dot_product_attention_fwd_cuda_lowering. cbv zeta.
  rewrite Hq, Hk. cbn [unpack4 bind].
  eexists. split; reflexivity.
Qed.

(** The backward lowering, run on a rank-4 query and key. *)
Lemma bwd_lowering_rank4
    (ctx : LoweringRuleContext)
    (grad_output query key value activation : ir.Value) (scale : pyval)
    (b sq h d kb kv kh kd : Z) :
  value_shape query = [b; sq; h; d] ->
  value_shape key = [kb; kv; kh; kd] ->
  exists opaque,
    create_dot_product_attention_backend_config
      b h sq kv (ir.element_type (ir.type query)) scale
      (PyInt 0) (PyBool false) (PyBool false) = Return opaque /\
    _dot_product_attention_bwd_cuda_lowering ctx grad_output query key value
                                             activation scale
    = Return
        (mkCustomCall "__cudnn$fhmaSoftmaxBackward"
           [ ir.type query; ir.type key; ir.type value ]
           [ query; key; value; activation ]
           opaque
           (default_layouts
              [value_shape query; value_shape key; value_shape value;
               value_shape activation])
           (default_layouts
              [value_shape query; value_shape key; value_shape value])).
Proof.
  unfold value_shape. intros Hq Hk.
  unfold _dot_product_attention_bwd_cuda_lowering. cbv zeta.
  rewrite Hq, Hk. cbn [unpack4 bind].
  eexists. split; [reflexivity |].
  unfold custom_call. rewrite <- Hq, <- Hk, !ranked_tensor_eta.
  reflexivity.
Qed.



Lemma fwd_lowering_Return_inv
    (ctx : LoweringRuleContext) (query key value : ir.Value) (scale : pyval)
    (op : CustomCall) :
  _dot_product_attention_fwd_cuda_lowering ctx query key value scale
  = Return op ->
  exists b sq h d kb kv kh kd,
    value_shape query = [b; sq; h; d] /\
    value_shape key = [kb; kv; kh; kd].
Proof.
  unfold _dot_product_attention_fwd_cuda_lowering, value_shape. cbv zeta.
  destruct (ir.shape (ir.type query))
    as [| b [| sq [| h [| d [| ? ?]]]]]; try discriminate.
  destruct (ir.shape (ir.type key))
    as [| kb [| kv [| kh [| kd [| ? ?]]]]]; try discriminate.
  intros _. exists b, sq, h, d, kb, kv, kh, kd. split; reflexivity.
Qed.

Lemma bwd_lowering_Return_inv
    (ctx : LoweringRuleContext)
    (grad_output query key value activation : ir.Value) (scale : pyval)
    (op : CustomCall) :
  _dot_product_attention_bwd_cuda_lowering ctx grad_output query key value
                                           activation scale
  = Return op ->
  exists b sq h d kb kv kh kd,
    value_shape query = [b; sq; h; d] /\
    value_shape key = [kb; kv; kh; kd].
Proof.
  unfold _dot_product_attention_bwd_cuda_lowering, value_shape. cbv zeta.
  destruct (ir.shape (ir.type query))
    as [| b [| sq [| h [| d [| ? ?]]]]]; try discriminate.
  destruct (ir.shape (ir.type key))
    as [| kb [| kv [| kh [| kd [| ? ?]]]]]; try discriminate.
  intros _. exists b, sq, h, d, kb, kv, kh, kd. split; reflexivity.
Qed.





(** Extra X11.  A backward kernel call has the tensor types of query, key
    and value as its three result types, and query, key, value and
    activation as its operands: the output gradient is not among them. *)
Theorem bwd_lowering_results_and_operands :
  forall (ctx : LoweringRuleContext)
         (grad_output query key value activation : ir.Value)
         (scale : pyval) (op : CustomCall),
    _dot_product_attention_bwd_cuda_lowering ctx grad_output query key value
                                             activation scale
    = Return op ->
    result_types op = [ir.type query; ir.type key; ir.type value] /\
    operands op = [query; key; value; activation] /\
    call_target_name op = "__cudnn$fhmaSoftmaxBackward".
Proof.
  intros ctx go q k v act scale op H.
  destruct (bwd_lowering_Return_inv _ _ _ _ _ _ _ _ H)
    as (b & sq & h & d & kb & kv & kh & kd & Sq & Sk).
  destruct (bwd_lowering_rank4 ctx go q k v act scale _ _ _ _ _ _ _ _ Sq Sk)
    as (opaque & _ & E).
  rewrite E in H. injection H as <-. repeat split.
Qed.

Lemma bwd_lowering_results_and_operands_witness :
  exists op,
    _dot_product_attention_bwd_cuda_lowering tt
      (tensor_bf16 [2; 128; 4; 64])
      (tensor_bf16 [2; 128; 4; 64]) (tensor_bf16 [2; 128; 4; 64])
      (tensor_bf16 [2; 128; 4; 64]) (tensor_bf16 [2; 4; 128; 128])
      scale_0_125 = Return op /\
    result_types op
    = [ir.type (tensor_bf16 [2; 128; 4; 64]);
       ir.type (tensor_bf16 [2; 128; 4; 64]);
       ir.type (tensor_bf16 [2; 128; 4; 64])].
Proof.
  eexists. split; [reflexivity |].
  apply (bwd_lowering_results_and_operands tt
           (tensor_bf16 [2; 128; 4; 64])
           (tensor_bf16 [2; 128; 4; 64]) (tensor_bf16 [2; 128; 4; 64])
           (tensor_bf16 [2; 128; 4; 64]) (tensor_bf16 [2; 4; 128; 128])
           scale_0_125).
  reflexivity.
Defined.

(** The backward lowering never looks at the output gradient, and neither
    lowering looks at its context. *)
Lemma lowering_ignores_grad_output_and_context :
  forall (ctx1 ctx2 : LoweringRuleContext)
         (grad_output1 grad_output2 query key value activation : ir.Value)
         (scale : pyval),
    _dot_product_attention_bwd_cuda_lowering ctx1 grad_output1 query key
                                             value activation scale
    = _dot_product_attention_bwd_cuda_lowering ctx2 grad_output2 query key
                                               value activation scale /\
    _dot_product_attention_fwd_cuda_lowering ctx1 query key value scale
    = _dot_product_attention_fwd_cuda_lowering ctx2 query key value scale.
Proof.
  intros. split; reflexivity.
Qed.

(** Extra X12.  In every kernel call a lowering returns, the operand
    layouts are the default layouts of the operand shapes and the result
    layouts those of the result shapes; so the call carries one layout per
    operand and per result, each a permutation of that tensor's axes. *)
Theorem lowering_layouts :
  forall (ctx : LoweringRuleContext)
         (grad_output query key value activation : ir.Value)
         (scale : pyval) (op : CustomCall),
    _dot_product_attention_fwd_cuda_lowering ctx query key value scale
    = Return op \/
    _dot_product_attention_bwd_cuda_lowering ctx grad_output query key value
                                             activation scale
    = Return op ->
    operand_layouts op = default_layouts (map value_shape (operands op)) /\
    result_layouts op = default_layouts (map ir.shape (result_types op)) /\
    Forall2 (fun v layout =>
               axis_permutation (List.length (value_shape v)) layout)
            (operands op) (operand_layouts op) /\
    Forall2 (fun t layout =>
               axis_permutation (List.length (ir.shape t)) layout)
            (result_types op) (result_layouts op).
Proof.
  intros ctx go q k v act scale op H.
  assert (operand_layouts op = default_layouts (map value_shape (operands op))
          /\ result_layouts op
             = default_layouts (map ir.shape (result_types op)))
    as [Eo Er].
  { destruct H as [H | H].
    - destruct (fwd_lowering_Return_inv _ _ _ _ _ _ H)
        as (b & sq & h & d & kb & kv & kh & kd & Sq & Sk).
      destruct (fwd_lowering_rank4 ctx q k v scale _ _ _ _ _ _ _ _ Sq Sk)
        as (opaque & _ & E).
      rewrite E in H. injection H as <-. split; reflexivity.
    - destruct (bwd_lowering_Return_inv _ _ _ _ _ _ _ _ H)
        as (b & sq & h & d & kb & kv & kh & kd & Sq & Sk).
      destruct (bwd_lowering_rank4 ctx go q k v act scale _ _ _ _ _ _ _ _
                  Sq Sk) as (opaque & _ & E).
      rewrite E in H. injection H as <-. split; reflexivity. }
  repeat split; try assumption.
  - rewrite Eo. clear. induction (operands op) as [| x xs IH]; cbn;
      constructor; [| exact IH].
    split; [apply range_down_NoDup | apply range_down_In].
  - rewrite Er. clear. induction (result_types op) as [| x xs IH]; cbn;
      constructor; [| exact IH].
    split; [apply range_down_NoDup | apply range_down_In].
Qed.

Lemma lowering_layouts_witness :
  exists op,
    _dot_product_attention_fwd_cuda_lowering tt
      (tensor_bf16 [2; 128; 4; 64]) (tensor_bf16 [2; 128; 4; 64])
      (tensor_bf16 [2; 128]) scale_0_125 = Return op /\
    operand_layouts op = default_layouts (map value_shape (operands op)) /\
    operand_layouts op = [[3; 2; 1; 0]; [3; 2; 1; 0]; [1; 0]].
Proof.
  eexists. split; [reflexivity |]. split; [| reflexivity].
  apply (lowering_layouts tt
           (tensor_bf16 [2; 128; 4; 64])
           (tensor_bf16 [2; 128; 4; 64]) (tensor_bf16 [2; 128; 4; 64])
           (tensor_bf16 [2; 128]) (tensor_bf16 [2; 4; 128; 128])
           scale_0_125).
  left. reflexivity.
Defined.

(** ** What a configuration says about the call *)

Lemma to_int_nonnil (n : Z) :
  Z.to_int n <> Decimal.Pos Decimal.Nil /\
  Z.to_int n <> Decimal.Neg Decimal.Nil.
Proof.
  destruct n as [| p | p]; cbn; split; try discriminate;
    intros [= H]; exact (DecimalPos.Unsigned.to_uint_nonnil p H).
Qed.

(** [int(str(n)) == n], negative integers and zero included. *)
Lemma parse_int_str (n : Z) : parse_int (str n) = Some n.
Proof.
  unfold parse_int, str.
  destruct (to_int_nonnil n) as [Hp Hn].
  rewrite (NilZero.isi _ Hp Hn). cbn [option_map].
  rewrite DecimalZ.of_to. reflexivity.
Qed.

Lemma str_inj (a b : Z) : str a = str b -> a = b.
Proof.
  intros H. apply (f_equal parse_int) in H.
  rewrite !parse_int_str in H. congruence.
Qed.

Lemma backend_config_value
    (batch_size num_heads seq_q seq_kv : Z) (ty : ir.Type_)
    (fmha_scale dropout_rate is_flash_attention is_causal_mask cfg : pyval) :
  create_dot_product_attention_backend_config
    batch_size num_heads seq_q seq_kv ty
    fmha_scale dropout_rate is_flash_attention is_causal_mask
  = Return cfg ->
  config_dimensions cfg
  = Some [str batch_size; str num_heads; str seq_q; str seq_kv] /\
  config_minor_to_major cfg = Some ["3"; "2"; "1"; "0"] /\
  element_type_tag cfg
  = Some (element_type_to_backend_config_type_mapping ty).
Proof.
  unfold create_dot_product_attention_backend_config.
  intros H. injection H as <-. repeat split.
Qed.

(** Extra X13.  The four dimensions a configuration records decode to the
    batch size, the head count and the two sequence lengths the encoder was
    called with, in this order, whatever their sign. *)
Theorem backend_config_dimensions_roundtrip :
  forall (batch_size num_heads seq_q seq_kv : Z) (dtype : ir.Type_)
         (fmha_scale dropout_rate is_flash_attention is_causal_mask : pyval),
    exists cfg dims,
      create_dot_product_attention_backend_config
        batch_size num_heads seq_q seq_kv dtype
        fmha_scale dropout_rate is_flash_attention is_causal_mask
      = Return cfg /\
      config_dimensions cfg = Some dims /\
      map parse_int dims
      = [Some batch_size; Some num_heads; Some seq_q; Some seq_kv].
Proof.
  intros b h q k ty scale rate flash causal.
  destruct (backend_config_returns b h q k ty scale rate flash causal)
    as [d H].
  destruct (backend_config_value _ _ _ _ _ _ _ _ _ _ H) as (Hd & _ & _).
  exists (PyDict d), [str b; str h; str q; str k].
  split; [exact H | split; [exact Hd |]].
  cbn [map]. rewrite !parse_int_str. reflexivity.
Qed.

(** Extra X14.  Configurations tell calls apart: two encoder calls return
    the same configuration only if they agree on batch size, head count,
    both sequence lengths, scale, dropout rate and both flags, and their
    dtypes have the same backend tag. *)
Theorem backend_config_injective :
  forall (batch_size1 num_heads1 seq_q1 seq_kv1 : Z) (dtype1 : ir.Type_)
         (fmha_scale1 dropout_rate1 is_flash1 is_causal1 : pyval)
         (batch_size2 num_heads2 seq_q2 seq_kv2 : Z) (dtype2 : ir.Type_)
         (fmha_scale2 dropout_rate2 is_flash2 is_causal2 : pyval),
    create_dot_product_attention_backend_config
      batch_size1 num_heads1 seq_q1 seq_kv1 dtype1
      fmha_scale1 dropout_rate1 is_flash1 is_causal1
    = create_dot_product_attention_backend_config
        batch_size2 num_heads2 seq_q2 seq_kv2 dtype2
        fmha_scale2 dropout_rate2 is_flash2 is_causal2 ->
    (batch_size1, num_heads1, seq_q1, seq_kv1)
    = (batch_size2, num_heads2, seq_q2, seq_kv2) /\
    (fmha_scale1, dropout_rate1, is_flash1, is_causal1)
    = (fmha_scale2, dropout_rate2, is_flash2, is_causal2) /\
    element_type_to_backend_config_type_mapping dtype1
    = element_type_to_backend_config_type_mapping dtype2.
Proof.
  intros b1 h1 q1 k1 t1 s1 r1 f1 c1 b2 h2 q2 k2 t2 s2 r2 f2 c2 E.
  destruct (backend_config_returns b1 h1 q1 k1 t1 s1 r1 f1 c1) as [d1 H1].
  pose proof H1 as H2. rewrite E in H2.
  destruct (backend_config_value _ _ _ _ _ _ _ _ _ _ H1) as (D1 & _ & T1).
  destruct (backend_config_value _ _ _ _ _ _ _ _ _ _ H2) as (D2 & _ & T2).
  destruct (backend_config_settings _ _ _ _ _ _ _ _ _ _ H1)
    as (S1 & R1 & F1 & C1 & _).
  destruct (backend_config_settings _ _ _ _ _ _ _ _ _ _ H2)
    as (S2 & R2 & F2 & C2 & _).
  rewrite D1 in D2. injection D2 as Eb Eh Eq Ek.
  apply str_inj in Eb, Eh, Eq, Ek. subst.
  split; [reflexivity |]. split; congruence.
Qed.

Lemma backend_config_injective_witness :
  (2, 4, 128, 128) = (2, 4, 128, 128) /\
  (scale_0_125, PyInt 0, PyBool false, PyBool false)
  = (scale_0_125, PyInt 0, PyBool false, PyBool false) /\
  element_type_to_backend_config_type_mapping ir.F32Type
  = element_type_to_backend_config_type_mapping ir.F64Type.
Proof.
  apply (backend_config_injective
           2 4 128 128 ir.F32Type
           scale_0_125 (PyInt 0) (PyBool false) (PyBool false)
           2 4 128 128 ir.F64Type
           scale_0_125 (PyInt 0) (PyBool false) (PyBool false)).
  reflexivity.
Defined.

(** The tag table knows the two half-precision element types and nothing
    else. *)
Lemma element_type_tags :
  forall dtype : ir.Type_,
    (element_type_to_backend_config_type_mapping dtype = PyStr "BF16"
     <-> dtype = ir.BF16Type) /\
    (element_type_to_backend_config_type_mapping dtype = PyStr "F16"
     <-> dtype = ir.F16Type) /\
    (element_type_to_backend_config_type_mapping dtype = PyNone
     <-> dtype <> ir.BF16Type /\ dtype <> ir.F16Type) /\
    (forall s,
        element_type_to_backend_config_type_mapping dtype = PyStr s ->
        s = "BF16" \/ s = "F16").
Proof.
  intros ty. rewrite element_type_mapping_cases.
  destruct ty; repeat split; intros; try discriminate; try congruence;
    try tauto;
    match goal with
    | H : _ /\ _ |- _ => destruct H; congruence
    | H : PyStr _ = PyStr _ |- _ => injection H as <-; auto
    end.
Qed.

(** Extra X15.  The configuration of a forward kernel call describes the
    activation the call returns: its dimensions are the decimal strings of
    the shape of the second result type, its element-type tag is the tag of
    that result's element type, and its minor-to-major list spells the
    layout the call gives that result. *)
Theorem fwd_lowering_config_describes_activation :
  forall (ctx : LoweringRuleContext) (query key value : ir.Value)
         (scale : pyval) (op : CustomCall),
    _dot_product_attention_fwd_cuda_lowering ctx query key value scale
    = Return op ->
    exists output_type activation_type output_layout activation_layout,
      result_types op = [output_type; activation_type] /\
      result_layouts op = [output_layout; activation_layout] /\
      config_dimensions (backend_config op)
      = Some (map str (ir.shape activation_type)) /\
      element_type_tag (backend_config op)
      = Some (element_type_to_backend_config_type_mapping
                (ir.element_type activation_type)) /\
      config_minor_to_major (backend_config op)
      = Some (map str activation_layout).
Proof.
  intros ctx q k v scale op H.
  destruct (fwd_lowering_Return_inv _ _ _ _ _ _ H)
    as (b & sq & h & d & kb & kv & kh & kd & Sq & Sk).
  destruct (fwd_lowering_rank4 ctx q k v scale _ _ _ _ _ _ _ _ Sq Sk)
    as (opaque & Hcfg & E).
  rewrite E in H. injection H as <-.
  destruct (backend_config_value _ _ _ _ _ _ _ _ _ _ Hcfg)
    as (Hd & Hm & Ht).
  do 4 eexists. cbn [result_types result_layouts backend_config].
  split; [reflexivity |]. split; [reflexivity |].
  cbn [ir.shape ir.element_type map].
  split; [exact Hd |]. split; [exact Ht |]. exact Hm.
Qed.

Lemma fwd_lowering_config_describes_activation_witness :
  exists op output_type activation_type output_layout activation_layout,
    _dot_product_attention_fwd_cuda_lowering tt
      (tensor_bf16 [2; 128; 4; 64]) (tensor_bf16 [2; 77; 4; 64])
      (tensor_bf16 [2; 77; 4; 64]) scale_0_125 = Return op /\
    result_types op = [output_type; activation_type] /\
    result_layouts op = [output_layout; activation_layout] /\
    config_dimensions (backend_config op)
    = Some (map str (ir.shape activation_type)) /\
    element_type_tag (backend_config op)
    = Some (element_type_to_backend_config_type_mapping
              (ir.element_type activation_type)) /\
    config_minor_to_major (backend_config op)
    = Some (map str activation_layout).
Proof.
  eexists.
  destruct (fwd_lowering_config_describes_activation tt
              (tensor_bf16 [2; 128; 4; 64]) (tensor_bf16 [2; 77; 4; 64])
              (tensor_bf16 [2; 77; 4; 64]) scale_0_125 _ eq_refl)
    as (ot & at_ & ol & al & H).
  exists ot, at_, ol, al. split; [reflexivity | exact H].
Defined.

(** Extra X16.  Forward and backward lowering of the same query and key
    with the same scale carry the same configuration, and one returns
    exactly when the other does. *)
Theorem fwd_bwd_lowering_same_config :
  forall (ctx : LoweringRuleContext)
         (grad_output query key value activation : ir.Value)
         (scale : pyval),
    (forall op_fwd op_bwd,
        _dot_product_attention_fwd_cuda_lowering ctx query key value scale
        = Return op_fwd ->
        _dot_product_attention_bwd_cuda_lowering ctx grad_output query key
                                                 value activation scale
        = Return op_bwd ->
        backend_config op_fwd = backend_config op_bwd) /\
    ((exists op_fwd,
         _dot_product_attention_fwd_cuda_lowering ctx query key value scale
         = Return op_fwd) <->
     (exists op_bwd,
         _dot_product_attention_bwd_cuda_lowering ctx grad_output query key
                                                  value activation scale
         = Return op_bwd)).
Proof.
  intros ctx go q k v act scale. split.
  - intros op1 op2 H1 H2.
    destruct (fwd_lowering_Return_inv _ _ _ _ _ _ H1)
      as (b & sq & h & d & kb & kv & kh & kd & Sq & Sk).
    destruct (fwd_lowering_rank4 ctx q k v scale _ _ _ _ _ _ _ _ Sq Sk)
      as (o1 & C1 & E1).
    destruct (bwd_lowering_rank4 ctx go q k v act scale _ _ _ _ _ _ _ _
                Sq Sk) as (o2 & C2 & E2).
    rewrite E1 in H1. rewrite E2 in H2.
    injection H1 as <-. injection H2 as <-.
    cbn [backend_config]. congruence.
  - split; intros [op H].
    + destruct (fwd_lowering_Return_inv _ _ _ _ _ _ H)
        as (b & sq & h & d & kb & kv & kh & kd & Sq & Sk).
      destruct (bwd_lowering_rank4 ctx go q k v act scale _ _ _ _ _ _ _ _
                  Sq Sk) as (o2 & _ & E2).
      eexists; exact E2.
    + destruct (bwd_lowering_Return_inv _ _ _ _ _ _ _ _ H)
        as (b & sq & h & d & kb & kv & kh & kd & Sq & Sk).
      destruct (fwd_lowering_rank4 ctx q k v scale _ _ _ _ _ _ _ _ Sq Sk)
        as (o1 & _ & E1).
      eexists; exact E1.
Qed.

Lemma fwd_bwd_lowering_same_config_witness :
  exists op_fwd op_bwd,
    _dot_product_attention_fwd_cuda_lowering tt
      (tensor_bf16 [2; 128; 4; 64]) (tensor_bf16 [2; 128; 4; 64])
      (tensor_bf16 [2; 128; 4; 64]) scale_0_125 = Return op_fwd /\
    _dot_product_attention_bwd_cuda_lowering tt
      (tensor_bf16 [2; 128; 4; 64])
      (tensor_bf16 [2; 128; 4; 64]) (tensor_bf16 [2; 128; 4; 64])
      (tensor_bf16 [2; 128; 4; 64]) (tensor_bf16 [2; 4; 128; 128])
      scale_0_125 = Return op_bwd /\
    backend_config op_fwd = backend_config op_bwd.
Proof.
  do 2 eexists. split; [reflexivity |]. split; [reflexivity |].
  apply (proj1 (fwd_bwd_lowering_same_config tt
                  (tensor_bf16 [2; 128; 4; 64])
                  (tensor_bf16 [2; 128; 4; 64])
                  (tensor_bf16 [2; 128; 4; 64])
                  (tensor_bf16 [2; 128; 4; 64])
                  (tensor_bf16 [2; 4; 128; 128]) scale_0_125));
    reflexivity.
Defined.

(** ** The differentiation rule *)

Lemma bind_retuple3 {A B C : Type} (m : py (A * B * C)) :
  ('(a, b, c) <- m ;; Return (a, b, c)) = m.
Proof. destruct m as [[[a b] c] | e]; reflexivity. Qed.


(** Extra X17.  Residuals travel unchanged from the forward to the backward
    rule: when the forward primitive returns (output, activation), the
    forward rule returns the output with residuals from which the backward
    rule binds the backward primitive on exactly (grad_output, query, key,
    value, activation, scale); and the user-facing function returns the
    output alone.  When the forward primitive raises, so do both. *)
Theorem vjp_residuals :
  forall (Tensor : Type)
         (fwd_bind : Tensor -> Tensor -> Tensor -> pyval ->
                     py (Tensor * Tensor))
         (bwd_bind : Tensor -> Tensor -> Tensor -> Tensor -> Tensor ->
                     pyval -> py (Tensor * Tensor * Tensor))
         (query key value : Tensor) (scale : pyval),
    (forall output activation,
        fwd_bind query key value scale = Return (output, activation) ->
        exists res,
          dot_product_attention_fwd Tensor fwd_bind query key value scale
          = Return (output, res) /\
          dot_product_attention Tensor fwd_bind query key value scale
          = Return output /\
          forall grad_output,
            dot_product_attention_bwd Tensor bwd_bind scale res grad_output
            = bwd_bind grad_output query key value activation scale) /\
    (forall e,
        fwd_bind query key value scale = Raise e ->
        dot_product_attention_fwd Tensor fwd_bind query key value scale
        = Raise e /\
        dot_product_attention Tensor fwd_bind query key value scale
        = Raise e).
Proof.
  intros T fb bb q k v scale. split.
  - intros out act H. exists (act, q, k, v).
    unfold dot_product_attention, dot_product_attention_fwd,
      dot_product_attention_bwd.
    rewrite H. cbn [bind]. repeat split.
    intros g. apply bind_retuple3.
  - intros e H.
    unfold dot_product_attention, dot_product_attention_fwd.
    rewrite H. split; reflexivity.
Qed.

Lemma vjp_residuals_witness :
  exists res,
    dot_product_attention_fwd ShapedArray
      (_dot_product_attention_fwd_abstract (canonicalize_x64 false))
      bf16_2_128_4_64 bf16_3_128_5_64 bf16_7_99_6_64 scale_0_125
    = Return (bf16_2_128_4_64, res) /\
    dot_product_attention ShapedArray
      (_dot_product_attention_fwd_abstract (canonicalize_x64 false))
      bf16_2_128_4_64 bf16_3_128_5_64 bf16_7_99_6_64 scale_0_125
    = Return bf16_2_128_4_64 /\
    forall grad_output,
      dot_product_attention_bwd ShapedArray
        (_dot_product_attention_bwd_abstract (canonicalize_x64 false))
        scale_0_125 res grad_output
      = _dot_product_attention_bwd_abstract (canonicalize_x64 false)
          grad_output bf16_2_128_4_64 bf16_3_128_5_64 bf16_7_99_6_64
          (mkShapedArray [2; 4; 128; 128] bfloat16) scale_0_125.
Proof.
  apply (proj1 (vjp_residuals ShapedArray
                  (_dot_product_attention_fwd_abstract
                     (canonicalize_x64 false))
                  (_dot_product_attention_bwd_abstract
                     (canonicalize_x64 false))
                  bf16_2_128_4_64 bf16_3_128_5_64 bf16_7_99_6_64
                  scale_0_125)).
  reflexivity.
Defined.


